(** * grpc-healthcheck: a shallow embedding of [grpc_healthcheck.py]

    The tool opens one gRPC channel, issues one [grpc.health.v1.Health/Check]
    call, classifies the answer and terminates the process with
    [sys.exit].  The embedding follows the Python source statement by
    statement:

    - everything the program makes observable (lines printed on stdout and
      stderr, the channel being created and closed, the Check call) is
      recorded in a trace of events;
    - Python exceptions, [sys.exit] included, are the [Raise] outcome of a
      small writer/exception monad [M]; [try/except] and [try/finally] are
      combinators of that monad;
    - the gRPC runtime and the remote server are a record of outcomes
      ([GrpcRuntime]); the builtins [int], [float] and [repr] of a float are
      parameters of the development.

    Modelling scope.  [print] and [channel.close()] are taken to succeed.
    The command line is taken after argparse has split it into occurrences
    of the seven options that [main] declares; the automatic [-h] option,
    unrecognised words and options lacking their value are not part of the
    model. *)

From Stdlib Require Import ZArith List String Bool Lia.
From Stdlib Require Import DecimalString.
Import ListNotations.
Open Scope string_scope.
Open Scope Z_scope.

(** ** Python values used by the program *)

(** [grpc.StatusCode], in the order of the numeric codes 0..16. *)
Inductive StatusCode : Type :=
| OK | CANCELLED | UNKNOWN_CODE | INVALID_ARGUMENT | DEADLINE_EXCEEDED
| NOT_FOUND | ALREADY_EXISTS | PERMISSION_DENIED | RESOURCE_EXHAUSTED
| FAILED_PRECONDITION | ABORTED | OUT_OF_RANGE | UNIMPLEMENTED | INTERNAL
| UNAVAILABLE | DATA_LOSS | UNAUTHENTICATED.

(** [status_code.name] *)
Definition StatusCode_name (c : StatusCode) : string :=
  match c with
  | OK => "OK" | CANCELLED => "CANCELLED" | UNKNOWN_CODE => "UNKNOWN"
  | INVALID_ARGUMENT => "INVALID_ARGUMENT"
  | DEADLINE_EXCEEDED => "DEADLINE_EXCEEDED" | NOT_FOUND => "NOT_FOUND"
  | ALREADY_EXISTS => "ALREADY_EXISTS"
  | PERMISSION_DENIED => "PERMISSION_DENIED"
  | RESOURCE_EXHAUSTED => "RESOURCE_EXHAUSTED"
  | FAILED_PRECONDITION => "FAILED_PRECONDITION" | ABORTED => "ABORTED"
  | OUT_OF_RANGE => "OUT_OF_RANGE" | UNIMPLEMENTED => "UNIMPLEMENTED"
  | INTERNAL => "INTERNAL" | UNAVAILABLE => "UNAVAILABLE"
  | DATA_LOSS => "DATA_LOSS" | UNAUTHENTICATED => "UNAUTHENTICATED"
  end.

(** [status_code == grpc.StatusCode.X]: identity of enum members. *)
Definition StatusCode_eqb (a b : StatusCode) : bool :=
  match a, b with
  | OK, OK | CANCELLED, CANCELLED | UNKNOWN_CODE, UNKNOWN_CODE
  | INVALID_ARGUMENT, INVALID_ARGUMENT
  | DEADLINE_EXCEEDED, DEADLINE_EXCEEDED | NOT_FOUND, NOT_FOUND
  | ALREADY_EXISTS, ALREADY_EXISTS | PERMISSION_DENIED, PERMISSION_DENIED
  | RESOURCE_EXHAUSTED, RESOURCE_EXHAUSTED
  | FAILED_PRECONDITION, FAILED_PRECONDITION | ABORTED, ABORTED
  | OUT_OF_RANGE, OUT_OF_RANGE | UNIMPLEMENTED, UNIMPLEMENTED
  | INTERNAL, INTERNAL | UNAVAILABLE, UNAVAILABLE | DATA_LOSS, DATA_LOSS
  | UNAUTHENTICATED, UNAUTHENTICATED => true
  | _, _ => false
  end.

(** [health_pb2.HealthCheckResponse.ServingStatus]: a proto3 enum, so the
    [status] field of a response is an integer; four values are named. *)
Definition UNKNOWN : Z := 0.
Definition SERVING : Z := 1.
Definition NOT_SERVING : Z := 2.
Definition SERVICE_UNKNOWN : Z := 3.

(** [str(n)] for a Python [int]. *)
Definition str_int (n : Z) : string := NilZero.string_of_int (Z.to_int n).

(** [f"{x}"] for a value that is a [str] or [None]. *)
Definition str_optional (o : option string) : string :=
  match o with Some s => s | None => "None" end.

(** Truth value of a [str]: the empty string is false. *)
Definition truthy (s : string) : bool := negb (String.eqb s "").

(** Exceptions, by the classes that the program tells apart.  [RpcError]
    carries what [e.code()], [e.details()] and [str(e)] return.
    [KeyboardInterrupt] and [SystemExit] derive from [BaseException] only;
    the other classes derive from [Exception]. *)
Inductive exn : Type :=
| RpcError (code : StatusCode) (details : string) (text : string)
| HealthCheckError (message : string)
| ValueError (message : string)
| OtherException (message : string)
| KeyboardInterrupt
| SystemExit (code : Z).

(** [isinstance(e, Exception)] *)
Definition is_Exception (e : exn) : bool :=
  match e with
  | KeyboardInterrupt | SystemExit _ => false
  | _ => true
  end.

(** [str(e)], as interpolated by [f"{e}"]. *)
Definition str_exn (e : exn) : string :=
  match e with
  | RpcError _ _ text => text
  | HealthCheckError m | ValueError m | OtherException m => m
  | KeyboardInterrupt => ""
  | SystemExit c => str_int c
  end.

(** ** Outcomes and the monad of traced, fallible computations *)

(** A Python computation either returns a value or raises. *)
Inductive outcome (A : Type) : Type :=
| Return (a : A)
| Raise (e : exn).
Arguments Return {A} a.
Arguments Raise {A} e.

(** A computation is the list of events it emitted, in order, and its
    outcome. *)
Definition M (E A : Type) : Type := (list E * outcome A)%type.

Definition events {E A} (m : M E A) : list E := fst m.
Definition result {E A} (m : M E A) : outcome A := snd m.

Definition ret {E A} (a : A) : M E A := ([], Return a).
Definition raise {E A} (e : exn) : M E A := ([], Raise e).
Definition emit {E} (ev : E) : M E unit := ([ev], Return tt).

Definition bind {E A B} (m : M E A) (k : A -> M E B) : M E B :=
  match m with
  | (t, Return a) => let (t', r) := k a in ((t ++ t')%list, r)
  | (t, Raise e) => (t, Raise e)
  end.

Notation "x <- m ;; k" := (bind m (fun x => k))
  (at level 61, m at next level, right associativity).
Notation "m ;; k" := (bind m (fun _ => k))
  (at level 61, right associativity).

(** [if c: body] *)
Definition when {E} (c : bool) (body : M E unit) : M E unit :=
  if c then body else ret tt.

(** The outcome of a library call, taken from the runtime. *)
Definition call {E A} (o : outcome A) : M E A := ([], o).

(** [try: body  except <classes>: handler].  [handler e] is [None] when no
    [except] clause matches [e], which then propagates; an exception
    raised by a handler is not caught by its sibling clauses. *)
Definition try_except {E A} (body : M E A) (handler : exn -> option (M E A))
  : M E A :=
  match body with
  | (t, Return a) => (t, Return a)
  | (t, Raise e) =>
      match handler e with
      | Some h => let (t', r) := h in ((t ++ t')%list, r)
      | None => (t, Raise e)
      end
  end.

(** [try: body  finally: final].  [final] runs on every outcome of
    [body]; the outcome of [body] stands unless [final] itself raises. *)
Definition try_finally {E A} (body : M E A) (final : M E unit) : M E A :=
  let (t, r) := body in
  match final with
  | (t', Return _) => ((t ++ t')%list, r)
  | (t', Raise e) => ((t ++ t')%list, Raise e)
  end.

(** ** The program *)

Section HealthCheck.

(** Python's [float]: the program converts, passes on and prints the
    timeout, and nothing else. *)
Variable float : Type.
(** [float(s)], [None] when it raises [ValueError]. *)
Variable float_of_str : string -> option float.
(** [f"{x}"] for a float. *)
Variable str_float : float -> string.
(** The literal [5.0]. *)
Variable float_5_0 : float.
(** [int(s)], [None] when it raises [ValueError]. *)
Variable int_of_str : string -> option Z.

(** What a run makes observable. *)
Inductive event : Type :=
| Stdout (line : string)            (* print(line) *)
| Stderr (line : string)            (* print(line, file=sys.stderr) *)
| Traceback                         (* traceback.print_exc() *)
| ParserError (message : string)    (* usage and "prog: error: message" on stderr *)
| ChannelOpened (target : string) (tls : bool)
| CheckCalled (service : string) (timeout : float)
| ChannelClosed.

(** The gRPC runtime together with the remote end: the outcome of each
    library call that [check_health] makes. *)
Record GrpcRuntime : Type := {
  ssl_channel_credentials : outcome unit;
  secure_channel : string -> outcome unit;
  insecure_channel : string -> outcome unit;
  HealthStub : outcome unit;
  HealthCheckRequest : string -> outcome unit;
  (* stub.Check(request, timeout=timeout) on the channel to [target]:
     the [status] of the response, or the exception raised *)
  stub_Check : string -> bool -> string -> float -> outcome Z
}.

Variable rt : GrpcRuntime.

Definition print (line : string) : M event unit := emit (Stdout line).
Definition print_err (line : string) : M event unit := emit (Stderr line).

(** [sys.exit(code)] raises [SystemExit]. *)
Definition sys_exit {A} (code : Z) : M event A := raise (SystemExit code).

(** [health_pb2.HealthCheckResponse.ServingStatus.Name(status)] raises
    [ValueError] for a number that names no member of the enum. *)
Definition ServingStatus_Name (status : Z) : outcome string :=
  match status with
  | 0 => Return "UNKNOWN"
  | 1 => Return "SERVING"
  | 2 => Return "NOT_SERVING"
  | 3 => Return "SERVICE_UNKNOWN"
  | _ => Raise (ValueError
           ("Enum ServingStatus has no name defined for value "
              ++ str_int status))
  end.

(** The [except grpc.RpcError as e] clause of [check_health]. *)
Definition on_RpcError (target service : string) (timeout : float)
    (verbose : bool) (e : exn) : option (M event Z) :=
  match e with
  | RpcError status_code details _ =>
      Some (
        when verbose (
          print ("❌ gRPC Error: " ++ StatusCode_name status_code) ;;
          print ("   Details: " ++ details)) ;;
        if StatusCode_eqb status_code UNIMPLEMENTED then
          raise (HealthCheckError
            ("Health check not implemented on the server. "
             ++ "Make sure the server implements grpc.health.v1.Health service."))
        else if StatusCode_eqb status_code DEADLINE_EXCEEDED then
          raise (HealthCheckError
            ("Health check timed out after " ++ str_float timeout ++ "s"))
        else if StatusCode_eqb status_code UNAVAILABLE then
          raise (HealthCheckError ("Cannot connect to " ++ target))
        else if StatusCode_eqb status_code NOT_FOUND then
          raise (HealthCheckError ("Service '" ++ service ++ "' not found"))
        else
          raise (HealthCheckError
            ("Health check failed: " ++ StatusCode_name status_code
             ++ " - " ++ details)))
  | _ => None
  end.

Definition check_health (target service : string) (timeout : float)
    (use_tls verbose : bool) : M event bool :=
  when verbose (
    print ("🔍 Checking health of gRPC server at " ++ target) ;;
    (if truthy service then print ("   Service: " ++ service)
     else print "   Service: <overall server health>") ;;
    print ("   Timeout: " ++ str_float timeout ++ "s") ;;
    print ("   TLS: " ++ (if use_tls then "enabled" else "disabled")) ;;
    print "") ;;
  (* Create the appropriate channel *)
  (if use_tls then
     call (ssl_channel_credentials rt) ;;
     call (secure_channel rt target) ;;
     emit (ChannelOpened target true)
   else
     call (insecure_channel rt target) ;;
     emit (ChannelOpened target false)) ;;
  try_finally (
    call (HealthStub rt) ;;
    call (HealthCheckRequest rt service) ;;
    (* Perform the health check *)
    status <- try_except (
                emit (CheckCalled service timeout) ;;
                call (stub_Check rt target use_tls service timeout))
              (on_RpcError target service timeout verbose) ;;
    (* Check the response status *)
    status_name <- call (ServingStatus_Name status) ;;
    when verbose (
      if status =? SERVING then
        print ("✅ Service is " ++ status_name)
      else if status =? NOT_SERVING then
        print ("❌ Service is " ++ status_name)
      else if status =? UNKNOWN then
        print ("⚠️  Service status is " ++ status_name)
      else
        print ("❓ Service status: " ++ status_name)) ;;
    ret (status =? SERVING))
  (emit ChannelClosed).

(** *** The command line *)

(** One occurrence of an option on the command line, with the word that
    follows it. *)
Inductive cli_arg : Type :=
| opt_target (value : string)
| opt_host (value : string)
| opt_port (value : string)
| opt_service (value : string)
| opt_timeout (value : string)
| opt_tls
| opt_verbose.

(** The namespace that [parser.parse_args()] returns. *)
Record Namespace : Type := {
  ns_target : option string;
  ns_host : option string;
  ns_port : option Z;
  ns_service : string;
  ns_timeout : float;
  ns_tls : bool;
  ns_verbose : bool
}.

(** The defaults of the declared arguments. *)
Definition defaults : Namespace :=
  {| ns_target := None; ns_host := None; ns_port := None;
     ns_service := ""; ns_timeout := float_5_0;
     ns_tls := false; ns_verbose := false |}.

(** argparse processes one occurrence: the value is converted by the
    argument's [type], then an argument of the mutually exclusive group
    [--target | --host] is refused when the other one was seen, then the
    value is stored.  The left outcome is the message of the
    [ArgumentError].  (Both group members default to [None] and are only
    ever stored by an occurrence, so "was seen" is "is not [None]".) *)
Definition take_action (ns : Namespace) (a : cli_arg) : string + Namespace :=
  match a with
  | opt_target v =>
      match ns_host ns with
      | Some _ => inl "argument --target: not allowed with argument --host"
      | None =>
          inr {| ns_target := Some v; ns_host := ns_host ns;
                 ns_port := ns_port ns; ns_service := ns_service ns;
                 ns_timeout := ns_timeout ns; ns_tls := ns_tls ns;
                 ns_verbose := ns_verbose ns |}
      end
  | opt_host v =>
      match ns_target ns with
      | Some _ => inl "argument --host: not allowed with argument --target"
      | None =>
          inr {| ns_target := ns_target ns; ns_host := Some v;
                 ns_port := ns_port ns; ns_service := ns_service ns;
                 ns_timeout := ns_timeout ns; ns_tls := ns_tls ns;
                 ns_verbose := ns_verbose ns |}
      end
  | opt_port v =>
      match int_of_str v with
      | None => inl ("argument --port: invalid int value: '" ++ v ++ "'")
      | Some n =>
          inr {| ns_target := ns_target ns; ns_host := ns_host ns;
                 ns_port := Some n; ns_service := ns_service ns;
                 ns_timeout := ns_timeout ns; ns_tls := ns_tls ns;
                 ns_verbose := ns_verbose ns |}
      end
  | opt_service v =>
      inr {| ns_target := ns_target ns; ns_host := ns_host ns;
             ns_port := ns_port ns; ns_service := v;
             ns_timeout := ns_timeout ns; ns_tls := ns_tls ns;
             ns_verbose := ns_verbose ns |}
  | opt_timeout v =>
      match float_of_str v with
      | None => inl ("argument --timeout: invalid float value: '" ++ v ++ "'")
      | Some t =>
          inr {| ns_target := ns_target ns; ns_host := ns_host ns;
                 ns_port := ns_port ns; ns_service := ns_service ns;
                 ns_timeout := t; ns_tls := ns_tls ns;
                 ns_verbose := ns_verbose ns |}
      end
  | opt_tls =>
      inr {| ns_target := ns_target ns; ns_host := ns_host ns;
             ns_port := ns_port ns; ns_service := ns_service ns;
             ns_timeout := ns_timeout ns; ns_tls := true;
             ns_verbose := ns_verbose ns |}
  | opt_verbose =>
      inr {| ns_target := ns_target ns; ns_host := ns_host ns;
             ns_port := ns_port ns; ns_service := ns_service ns;
             ns_timeout := ns_timeout ns; ns_tls := ns_tls ns;
             ns_verbose := true |}
  end.

(** The occurrences are processed from left to right; the first
    [ArgumentError] ends the parse. *)
Fixpoint consume (ns : Namespace) (argv : list cli_arg) : string + Namespace :=
  match argv with
  | [] => inr ns
  | a :: rest =>
      match take_action ns a with
      | inl message => inl message
      | inr ns' => consume ns' rest
      end
  end.

(** [parser.error(message)]: usage and message on stderr, then exit
    status 2. *)
Definition parser_error {A} (message : string) : M event A :=
  emit (ParserError message) ;; sys_exit 2.

(** [parser.parse_args()] for the parser that [main] builds: after the
    occurrences, the required group [--target | --host] must have been
    seen. *)
Definition parse_args (argv : list cli_arg) : M event Namespace :=
  match consume defaults argv with
  | inl message => parser_error message
  | inr args =>
      match ns_target args, ns_host args with
      | None, None =>
          parser_error "one of the arguments --target --host is required"
      | _, _ => ret args
      end
  end.

(** The [try] block of [main]. *)
Definition main_try (args : Namespace) (target : string) : M event unit :=
  is_healthy <- check_health target (ns_service args) (ns_timeout args)
                  (ns_tls args) (ns_verbose args) ;;
  if is_healthy then
    when (negb (ns_verbose args)) (print "✅ Service is healthy") ;;
    sys_exit 0
  else
    when (negb (ns_verbose args)) (print "❌ Service is not healthy") ;;
    sys_exit 1.

(** The [except HealthCheckError] and [except Exception] clauses of
    [main], in that order. *)
Definition main_except (args : Namespace) (e : exn) : option (M event unit) :=
  match e with
  | HealthCheckError _ =>
      Some (print_err ("❌ Health check failed: " ++ str_exn e) ;;
            sys_exit 1)
  | _ =>
      if is_Exception e then
        Some (print_err ("❌ Unexpected error: " ++ str_exn e) ;;
              when (ns_verbose args) (emit Traceback) ;;
              sys_exit 1)
      else None
  end.

(** Lines 188-193 of [main]: the target address. *)
Definition build_target (args : Namespace) : M event string :=
  let from_host_port :=
    match ns_port args with
    | None => parser_error "--port is required when using --host"
    | Some port => ret (str_optional (ns_host args) ++ ":" ++ str_int port)
    end in
  match ns_target args with
  | Some target => if truthy target then ret target else from_host_port
  | None => from_host_port
  end.

Definition main (argv : list cli_arg) : M event unit :=
  args <- parse_args argv ;;
  target <- build_target args ;;
  try_except (main_try args target) (main_except args).

(** A run of [main] ends the process with status [code] when the
    [SystemExit] of [sys.exit(code)] leaves it. *)
Definition exits_with (run : M event unit) (code : Z) : Prop :=
  result run = Raise (SystemExit code).

(** *** Notions used to state the properties *)

(** Every library call that [check_health] makes before [stub.Check]
    returns: the channel, the stub and the request exist. *)
Definition calls_succeed (target service : string) (use_tls : bool) : Prop :=
  (if use_tls
   then ssl_channel_credentials rt = Return tt
        /\ secure_channel rt target = Return tt
   else insecure_channel rt target = Return tt)
  /\ HealthStub rt = Return tt
  /\ HealthCheckRequest rt service = Return tt.

(** The Check call is reached and its outcome is [o]. *)
Definition Check_gives (target service : string) (timeout : float)
    (use_tls : bool) (o : outcome Z) : Prop :=
  calls_succeed target service use_tls
  /\ stub_Check rt target use_tls service timeout = o.

(** The command line [argv] parses to [args] and yields the address
    [target]. *)
Definition accepted (argv : list cli_arg) (args : Namespace)
    (target : string) : Prop :=
  parse_args argv = ret args /\ build_target args = ret target.

(** The call of [check_health] that [main] makes for [args]. *)
Definition probe (args : Namespace) (target : string) : M event bool :=
  check_health target (ns_service args) (ns_timeout args) (ns_tls args)
    (ns_verbose args).

(** A line that reports health / that reports something else than
    health, by the mark it starts with. *)
Definition success_indicator (line : string) : bool := prefix "✅" line.
Definition failure_indicator (line : string) : bool :=
  prefix "❌" line || prefix "⚠️" line || prefix "❓" line.

Definition stdout_lines (t : list event) : list string :=
  flat_map (fun ev => match ev with Stdout l => [l] | _ => [] end) t.

(** Number of Check calls in a trace. *)
Definition check_calls (t : list event) : nat :=
  List.length
    (filter (fun ev => match ev with CheckCalled _ _ => true | _ => false end) t).

(** A trace without its printed lines. *)
Definition silent (t : list event) : list event :=
  filter (fun ev => match ev with
                    | Stdout _ | Stderr _ | Traceback => false
                    | _ => true
                    end) t.

(** The life of the channel along a trace. *)
Inductive channel_state : Type := NoChannel | ChannelOpen | ChannelShut.

Definition channel_step (st : channel_state) (ev : event) : channel_state :=
  match ev, st with
  | ChannelOpened _ _, _ => ChannelOpen
  | ChannelClosed, ChannelOpen => ChannelShut
  | _, _ => st
  end.

Definition channel_after (t : list event) : channel_state :=
  fold_left channel_step t NoChannel.

(** The lines that a trace prints on stdout and stderr with [print]. *)
Definition printed (t : list event) : list event :=
  filter (fun ev => match ev with
                    | Stdout _ | Stderr _ => true
                    | _ => false
                    end) t.

(** The use of the channel along a trace, checked: a channel is created
    only when there is none yet, and the Check call and the close need an
    open channel.  [None] when an event breaks this. *)
Definition protocol_step (st : option channel_state) (ev : event)
  : option channel_state :=
  match st, ev with
  | None, _ => None
  | Some NoChannel, ChannelOpened _ _ => Some ChannelOpen
  | Some _, ChannelOpened _ _ => None
  | Some ChannelOpen, CheckCalled _ _ => Some ChannelOpen
  | Some _, CheckCalled _ _ => None
  | Some ChannelOpen, ChannelClosed => Some ChannelShut
  | Some _, ChannelClosed => None
  | Some st', _ => Some st'
  end.

Definition protocol (t : list event) : option channel_state :=
  fold_left protocol_step t (Some NoChannel).

(** Two namespaces that ask for the same Check call: same service,
    timeout, TLS and verbosity. *)
Definition same_request (a b : Namespace) : Prop :=
  ns_service a = ns_service b /\ ns_timeout a = ns_timeout b
  /\ ns_tls a = ns_tls b /\ ns_verbose a = ns_verbose b.

(** Two namespaces with the same address options. *)
Definition same_address (a b : Namespace) : Prop :=
  ns_target a = ns_target b /\ ns_host a = ns_host b
  /\ ns_port a = ns_port b.

(** An occurrence of [--target], [--host] or [--port]. *)
Definition is_address_option (a : cli_arg) : bool :=
  match a with
  | opt_target _ | opt_host _ | opt_port _ => true
  | _ => false
  end.

End HealthCheck.

Arguments Stdout {float} line.
Arguments Stderr {float} line.
Arguments Traceback {float}.
Arguments ParserError {float} message.
Arguments ChannelOpened {float} target tls.
Arguments CheckCalled {float} service timeout.
Arguments ChannelClosed {float}.
Arguments ns_target {float} _.
Arguments ns_host {float} _.
Arguments ns_port {float} _.
Arguments ns_service {float} _.
Arguments ns_timeout {float} _.
Arguments ns_tls {float} _.
Arguments ns_verbose {float} _.
Arguments ssl_channel_credentials {float} _.
Arguments secure_channel {float} _ _.
Arguments insecure_channel {float} _ _.
Arguments HealthStub {float} _.
Arguments HealthCheckRequest {float} _ _.
Arguments stub_Check {float} _ _ _ _ _.
Arguments exits_with {float} run code.
Arguments stdout_lines {float} t.
Arguments check_calls {float} t.
Arguments silent {float} t.
Arguments channel_step {float} st ev.
Arguments channel_after {float} t.
Arguments printed {float} t.
Arguments protocol_step {float} st ev.
Arguments protocol {float} t.

(** ** The example server of the repository *)

Module Example.

(** Whole-number floats: [float("10")] is [10.0], printed as ["10.0"]. *)
Definition int_of_str (s : string) : option Z :=
  option_map Z.of_int (NilZero.int_of_string s).
Definition float_of_str (s : string) : option Z := int_of_str s.
Definition str_float (x : Z) : string := str_int x ++ ".0".

(** [example_server.py]: a health servicer on port 50051 without TLS,
    with the statuses that [serve] sets; the servicer answers
    [NOT_FOUND] for a service it was not told about. *)
Definition server : GrpcRuntime Z :=
  {| ssl_channel_credentials := Return tt;
     secure_channel := fun _ => Return tt;
     insecure_channel := fun _ => Return tt;
     HealthStub := Return tt;
     HealthCheckRequest := fun _ => Return tt;
     stub_Check := fun target tls service _ =>
       if String.eqb target "localhost:50051" && negb tls then
         if String.eqb service "" then Return SERVING
         else if String.eqb service "example.Service" then Return SERVING
         else if String.eqb service "example.AnotherService"
         then Return NOT_SERVING
         else Raise (RpcError NOT_FOUND "" "<_InactiveRpcError>")
       else
         Raise (RpcError UNAVAILABLE "failed to connect to all addresses"
                  "<_InactiveRpcError>") |}.

(** The same server when the user interrupts the blocking Check call
    (Ctrl-C): the call raises [KeyboardInterrupt]. *)
Definition interrupted : GrpcRuntime Z :=
  {| ssl_channel_credentials := Return tt;
     secure_channel := fun _ => Return tt;
     insecure_channel := fun _ => Return tt;
     HealthStub := Return tt;
     HealthCheckRequest := fun _ => Return tt;
     stub_Check := fun _ _ _ _ => Raise KeyboardInterrupt |}.

(** A server that answers with a status number outside the enum. *)
Definition unnamed_status : GrpcRuntime Z :=
  {| ssl_channel_credentials := Return tt;
     secure_channel := fun _ => Return tt;
     insecure_channel := fun _ => Return tt;
     HealthStub := Return tt;
     HealthCheckRequest := fun _ => Return tt;
     stub_Check := fun _ _ _ _ => Return 7 |}.

(** The programs run against these runtimes. *)
Definition main := main Z float_of_str str_float 5 int_of_str.
Definition probe := probe Z str_float.
Definition accepted := accepted Z float_of_str 5 int_of_str.

(** The namespace of [--target localhost:50051 --service <service>]. *)
Definition local (service : string) : Namespace Z :=
  {| ns_target := Some "localhost:50051"; ns_host := None; ns_port := None;
     ns_service := service; ns_timeout := 5; ns_tls := false;
     ns_verbose := false |}.

End Example.


(** ** Properties *)

(** Left unit of the monad. *)
Lemma bind_ret {E A B} (a : A) (k : A -> M E B) : bind (ret a) k = k a.
Proof.
  unfold bind, ret. now destruct (k a).
Qed.

(** Unfolds the monad and the statements of the program. *)
Ltac unfold_program :=
  unfold main, probe, main_try, main_except,
    check_health, on_RpcError, try_finally, try_except, bind, when,
    call, emit, print, print_err, sys_exit, raise, ret, exits_with, result,
    events in *.

(** Replaces the library calls by the outcomes that [Check_gives] states. *)
Ltac use_runtime H :=
  let Hc := fresh "Hc" in let Hs := fresh "Hs" in let Hq := fresh "Hq" in
  let Hk := fresh "Hk" in
  destruct H as [[Hc [Hs Hq]] Hk];
  try rewrite Hs; try rewrite Hq; try rewrite Hk;
  match type of Hc with
  | context [if ?b then _ else _] =>
      destruct b;
      [ let H1 := fresh in let H2 := fresh in
        destruct Hc as [H1 H2]; try rewrite H1; try rewrite H2
      | try rewrite Hc ]
  end.

Ltac unfold_main := unfold main.

(** Unfolds the [try] statement of [main] around the call of
    [check_health], which stays folded. *)
Ltac unfold_try :=
  unfold probe, main_try, main_except, try_except, bind, when, emit, print,
    print_err, sys_exit, raise, ret, exits_with, result, events in *.
Ltac unfold_parser :=
  unfold parse_args, build_target, parser_error, sys_exit, raise, emit, ret,
    bind in *.
Ltac unfold_action := unfold take_action in *.

(** Case analysis on every outcome that a run depends on. *)
Ltac split_outcomes :=
  repeat (cbn;
          match goal with
          | |- context [match ?x with _ => _ end] =>
              lazymatch x with
              | context [match _ with _ => _ end] => fail
              | _ => destruct x
              end
          end).

(** The same, remembering the outcome of each library call. *)
Ltac split_outcomes_eqn :=
  repeat (cbn;
          match goal with
          | |- context [match ?x with _ => _ end] =>
              lazymatch x with
              | context [match _ with _ => _ end] => fail
              | _ => first [is_var x; destruct x | destruct x eqn:?]
              end
          end).

(** Closes a goal of [Check_gives] from the remembered outcomes. *)
Ltac from_outcomes :=
  repeat match goal with u : unit |- _ => destruct u end;
  try match goal with
      | H : Return (_ =? _) = Return true |- _ => injection H as H
      end;
  repeat match goal with
         | H : (_ =? _) = true |- _ => apply Z.eqb_eq in H; subst
         end;
  unfold Check_gives, calls_succeed; repeat split; assumption.

Section Properties.

Variable float : Type.
Variable float_of_str : string -> option float.
Variable str_float : float -> string.
Variable float_5_0 : float.
Variable int_of_str : string -> option Z.
Variable rt : GrpcRuntime float.

Local Abbreviation check_health := (check_health float str_float rt).
Local Abbreviation probe := (probe float str_float rt).
Local Abbreviation parse_args := (parse_args float float_of_str float_5_0 int_of_str).
Local Abbreviation main := (main float float_of_str str_float float_5_0 int_of_str rt).
Local Abbreviation accepted := (accepted float float_of_str float_5_0 int_of_str).
Local Abbreviation Check_gives := (Check_gives float rt).
Local Abbreviation take_action := (take_action float float_of_str int_of_str).
Local Abbreviation consume := (consume float float_of_str int_of_str).
Local Abbreviation defaults := (defaults float float_5_0).
Local Abbreviation build_target := (build_target float).

(** For an accepted command line, [main] is its [try] statement. *)
Lemma main_accepted (argv : list (cli_arg)) (args : Namespace float)
    (target : string) :
  accepted argv args target ->
  main argv =
  try_except (main_try float str_float rt args target) (main_except float args).
Proof.
  intros [Hp Ht]. unfold_main. rewrite Hp. unfold ret, bind in *.
  rewrite Ht. destruct (try_except _ _). reflexivity.
Qed.

(** C1.  When the Check call answers SERVING, [check_health] returns
    [True], a line with the success mark (and none with a failure mark) is
    printed on stdout, and the process exits with status 0. *)
Theorem serving_exits_0 (argv : list cli_arg) (args : Namespace float)
    (target : string) :
  accepted argv args target ->
  Check_gives target (ns_service args) (ns_timeout args) (ns_tls args)
    (Return SERVING) ->
  result (probe args target) = Return true
  /\ existsb success_indicator (stdout_lines (events (main argv))) = true
  /\ existsb failure_indicator (stdout_lines (events (main argv))) = false
  /\ exits_with (main argv) 0.
Proof.
  intros Hacc Hrun. rewrite (main_accepted _ _ _ Hacc).
  unfold_program.
  destruct (ns_verbose args), (truthy (ns_service args));
    use_runtime Hrun; cbn; auto.
Qed.

(** C2.  When the Check call answers NOT_SERVING, UNKNOWN or
    SERVICE_UNKNOWN, [check_health] returns [False], a line with a failure
    mark (and none with the success mark) is printed on stdout, and the
    process exits with status 1. *)
Theorem not_serving_exits_1 (argv : list cli_arg) (args : Namespace float)
    (target : string) (status : Z) :
  accepted argv args target ->
  status = NOT_SERVING \/ status = UNKNOWN \/ status = SERVICE_UNKNOWN ->
  Check_gives target (ns_service args) (ns_timeout args) (ns_tls args)
    (Return status) ->
  result (probe args target) = Return false
  /\ existsb failure_indicator (stdout_lines (events (main argv))) = true
  /\ existsb success_indicator (stdout_lines (events (main argv))) = false
  /\ exits_with (main argv) 1.
Proof.
  intros Hacc Hst Hrun. rewrite (main_accepted _ _ _ Hacc).
  unfold_program.
  destruct Hst as [-> | [-> | ->]];
    destruct (ns_verbose args), (truthy (ns_service args));
    use_runtime Hrun; cbn; auto.
Qed.

(** C3.  When the Check call raises an RPC error, [check_health] raises a
    [HealthCheckError] whose message is chosen by the status code (not
    implemented; timed out, with the timeout; cannot connect, with the
    target; service not found, with the service; otherwise the name of the
    code and the details), [main] reports it on stderr and the process
    exits with status 1; the Check call was made once. *)
Theorem rpc_error_classified (argv : list cli_arg) (args : Namespace float)
    (target : string) (code : StatusCode) (details text : string) :
  accepted argv args target ->
  Check_gives target (ns_service args) (ns_timeout args) (ns_tls args)
    (Raise (RpcError code details text)) ->
  let message :=
    match code with
    | UNIMPLEMENTED =>
        "Health check not implemented on the server. Make sure the server implements grpc.health.v1.Health service."
    | DEADLINE_EXCEEDED =>
        "Health check timed out after " ++ str_float (ns_timeout args) ++ "s"
    | UNAVAILABLE => "Cannot connect to " ++ target
    | NOT_FOUND => "Service '" ++ ns_service args ++ "' not found"
    | _ => "Health check failed: " ++ StatusCode_name code ++ " - " ++ details
    end in
  result (probe args target) = Raise (HealthCheckError message)
  /\ In (Stderr ("❌ Health check failed: " ++ message)) (events (main argv))
  /\ check_calls (events (main argv)) = 1%nat
  /\ exits_with (main argv) 1.
Proof.
  intros Hacc Hrun. rewrite (main_accepted _ _ _ Hacc).
  unfold_program.
  destruct (ns_verbose args), (truthy (ns_service args));
    use_runtime Hrun; destruct code; cbn;
    repeat split; auto 20 using in_eq, in_cons.
Qed.

(** [check_health] makes the Check call at most once. *)
Lemma check_health_calls_once (target service : string) (timeout : float)
    (use_tls verbose : bool) :
  (check_calls (events (check_health target service timeout use_tls verbose))
   <= 1)%nat.
Proof.
  unfold_program. split_outcomes; cbn; auto.
Qed.

(** *** The command line *)

(** A parse ends with a namespace and no output, or with a parser error. *)
Lemma parse_args_cases (argv : list cli_arg) :
  (exists args, parse_args argv = ret args)
  \/ (exists message,
        parse_args argv = ([ParserError message], Raise (SystemExit 2))).
Proof.
  unfold_parser. destruct (consume defaults argv) as [m | args].
  - right. now exists m.
  - destruct (ns_target args), (ns_host args);
      first [ left; eexists; reflexivity | right; eexists; reflexivity ].
Qed.

Lemma build_target_cases (args : Namespace float) :
  (exists target, build_target args = ret target)
  \/ (exists message,
        build_target args = ([ParserError message], Raise (SystemExit 2))).
Proof.
  unfold_parser.
  destruct (ns_target args) as [t |]; [destruct (truthy t) |];
    destruct (ns_port args);
    first [ left; eexists; reflexivity | right; eexists; reflexivity ].
Qed.

(** A command line is accepted, or [main] ends in the parser error with
    exit status 2 and nothing else happens. *)
Lemma main_cases (argv : list cli_arg) :
  (exists args target, accepted argv args target)
  \/ (exists message,
        main argv = ([ParserError message], Raise (SystemExit 2))).
Proof.
  destruct (parse_args_cases argv) as [[args Hp] | [m Hp]].
  - destruct (build_target_cases args) as [[target Ht] | [m Ht]].
    + left. exists args, target. now split.
    + right. exists m. unfold_main. rewrite Hp. unfold ret, bind in *.
      now rewrite Ht.
  - right. exists m. unfold_main. now rewrite Hp.
Qed.

(** What one occurrence does to the members of the exclusive group. *)
Lemma take_action_group (ns ns' : Namespace float) (a : cli_arg) :
  take_action ns a = inr ns' ->
  (ns_target ns <> None -> ns_target ns' <> None)
  /\ (ns_host ns <> None -> ns_host ns' <> None)
  /\ (forall v, a = opt_target v -> ns_target ns' <> None)
  /\ (forall v, a = opt_host v -> ns_host ns' <> None)
  /\ (ns_target ns = None \/ ns_host ns = None ->
      ns_target ns' = None \/ ns_host ns' = None).
Proof.
  unfold_action.
  destruct a; cbn;
    repeat match goal with
           | |- context [match ?x with _ => _ end] => destruct x eqn:?
           end;
    intros H; inversion H; subst; cbn;
    repeat split; intros; try discriminate; try congruence; auto;
    intuition congruence.
Qed.

Lemma consume_group (argv : list cli_arg) (ns ns' : Namespace float) :
  consume ns argv = inr ns' ->
  (ns_target ns <> None -> ns_target ns' <> None)
  /\ (ns_host ns <> None -> ns_host ns' <> None)
  /\ (forall v, In (opt_target v) argv -> ns_target ns' <> None)
  /\ (forall v, In (opt_host v) argv -> ns_host ns' <> None)
  /\ (ns_target ns = None \/ ns_host ns = None ->
      ns_target ns' = None \/ ns_host ns' = None).
Proof.
  revert ns. induction argv as [| a rest IH]; intros ns; cbn.
  - intros H. inversion H; subst. repeat split; auto; intros; contradiction.
  - destruct (take_action ns a) as [m | ns1] eqn:Ha; [discriminate |].
    intros Hc. apply IH in Hc.
    apply take_action_group in Ha.
    destruct Ha as (A1 & A2 & A3 & A4 & A5).
    destruct Hc as (B1 & B2 & B3 & B4 & B5).
    repeat split; auto.
    + intros v [-> | Hin]; eauto.
    + intros v [-> | Hin]; eauto.
Qed.

(** C5.  A command line that gives both [--target] and [--host] is
    refused with a parser error: the run consists of that error alone, so
    no channel is created and no Check call is made. *)
Theorem target_and_host_rejected (argv : list cli_arg) (tv hv : string) :
  In (opt_target tv) argv ->
  In (opt_host hv) argv ->
  exists message,
    main argv = ([ParserError message], Raise (SystemExit 2))
    /\ check_calls (events (main argv)) = 0%nat
    /\ channel_after (events (main argv)) = NoChannel.
Proof.
  intros Ht Hh.
  assert (Hrej : exists message, consume defaults argv = inl message).
  { destruct (consume defaults argv) as [m | ns] eqn:Hc; [now exists m |].
    apply consume_group in Hc. destruct Hc as (_ & _ & B3 & B4 & B5).
    specialize (B3 _ Ht). specialize (B4 _ Hh).
    destruct B5 as [B5 | B5]; [now left | |]; contradiction. }
  destruct Hrej as [m Hm]. exists m.
  assert (Hmain : main argv = ([ParserError m], Raise (SystemExit 2))).
  { unfold_main. unfold_parser. now rewrite Hm. }
  rewrite Hmain. repeat split.
Qed.

(** [check_calls] over a concatenation. *)
Lemma check_calls_app (t1 t2 : list (event float)) :
  check_calls (t1 ++ t2) = (check_calls t1 + check_calls t2)%nat.
Proof.
  unfold check_calls. now rewrite filter_app, length_app.
Qed.

(** C4 (amended).  No run makes the Check call more than once; a command
    line that is not accepted ends in the parser error alone, with exit
    status 2; a [HealthCheckError] of the probe is reported on stderr and
    ends the run with exit status 1. *)
Theorem errors_are_terminal (argv : list cli_arg) :
  (check_calls (events (main argv)) <= 1)%nat
  /\ ((forall args target, ~ accepted argv args target) ->
      exists message,
        main argv = ([ParserError message], Raise (SystemExit 2)))
  /\ (forall args target message,
        accepted argv args target ->
        result (probe args target) = Raise (HealthCheckError message) ->
        In (Stderr ("❌ Health check failed: " ++ message))
          (events (main argv))
        /\ exits_with (main argv) 1).
Proof.
  split; [| split].
  - destruct (main_cases argv) as [(args & target & Hacc) | [m Hm]].
    + rewrite (main_accepted _ _ _ Hacc).
      pose proof (check_health_calls_once target (ns_service args)
                    (ns_timeout args) (ns_tls args) (ns_verbose args)) as Hone.
      unfold main_try, main_except, try_except, bind, when, print, print_err,
        sys_exit, raise, emit, ret.
      destruct (check_health _ _ _ _ _) as [t [b | e]];
        cbn -[check_calls] in Hone.
      * destruct b, (ns_verbose args); cbn -[check_calls];
          rewrite ?check_calls_app, ?app_nil_r; cbn in *; lia.
      * destruct e; cbn -[check_calls]; try destruct (ns_verbose args);
          cbn -[check_calls];
          rewrite ?check_calls_app, ?app_nil_r; cbn in *; lia.
    + rewrite Hm. cbn. lia.
  - intros Hrej. destruct (main_cases argv) as [(args & target & Hacc) | Hm].
    + now destruct (Hrej args target).
    + exact Hm.
  - intros args target message Hacc Hraise.
    rewrite (main_accepted _ _ _ Hacc).
    unfold_try.
    destruct (check_health _ _ _ _ _) as [t r]. cbn in Hraise. subst r.
    cbn. split; [| reflexivity].
    apply in_or_app. right. now left.
Qed.

(** C6.  Whatever the outcome of [check_health], it does not leave the
    channel open; when it did create the channel, closing it is the last
    thing it does. *)
Theorem check_health_closes_channel (target service : string)
    (timeout : float) (use_tls verbose : bool) :
  let run := check_health target service timeout use_tls verbose in
  channel_after (events run) <> ChannelOpen
  /\ (In (ChannelOpened target use_tls) (events run) ->
      hd_error (rev (events run)) = Some ChannelClosed
      /\ channel_after (events run) = ChannelShut).
Proof.
  unfold_program. split_outcomes; cbn;
    (split; [discriminate | intros Hin; cbn in Hin]);
    repeat match goal with
           | H : _ \/ _ |- _ => destruct H as [H | H]; try discriminate H
           | H : False |- _ => destruct H
           end;
    now split.
Qed.

(** C7 (amended).  When the Check call answers one of the four named
    statuses, [check_health] returns the boolean "the status is SERVING". *)
Theorem check_health_returns_is_serving (args : Namespace float)
    (target : string) (status : Z) :
  status = SERVING \/ status = NOT_SERVING \/ status = UNKNOWN
  \/ status = SERVICE_UNKNOWN ->
  Check_gives target (ns_service args) (ns_timeout args) (ns_tls args)
    (Return status) ->
  result (probe args target) = Return (status =? SERVING).
Proof.
  intros Hst Hrun. unfold_program.
  destruct Hst as [-> | [-> | [-> | ->]]];
    destruct (ns_verbose args), (truthy (ns_service args));
    use_runtime Hrun; reflexivity.
Qed.

(** C10 (amended).  An exception of class [Exception] that [check_health]
    raises does not leave [main]: it is reported on stderr and the process
    exits with status 1. *)
Theorem exceptions_are_caught (argv : list cli_arg) (args : Namespace float)
    (target : string) (e : exn) :
  accepted argv args target ->
  result (probe args target) = Raise e ->
  is_Exception e = true ->
  In (Stderr ((match e with
               | HealthCheckError _ => "❌ Health check failed: "
               | _ => "❌ Unexpected error: "
               end) ++ str_exn e)) (events (main argv))
  /\ exits_with (main argv) 1.
Proof.
  intros Hacc Hraise Hexc. rewrite (main_accepted _ _ _ Hacc).
  unfold_try.
  destruct (check_health _ _ _ _ _) as [t r]. cbn in Hraise. subst r.
  destruct e; try discriminate Hexc; cbn;
    try destruct (ns_verbose args); cbn;
    (split; [apply in_or_app; right; now left | reflexivity]).
Qed.

(** *** Appending an option to an accepted command line *)

Lemma consume_app (argv : list cli_arg) (a : cli_arg) (ns : Namespace float) :
  consume ns (argv ++ [a]) =
  match consume ns argv with
  | inl message => inl message
  | inr ns' => take_action ns' a
  end.
Proof.
  revert ns. induction argv as [| b rest IH]; intros ns; cbn.
  - now destruct (take_action ns a).
  - destruct (take_action ns b); [reflexivity | apply IH].
Qed.

(** Without a [--service] occurrence the service keeps its value. *)
Lemma consume_service (argv : list cli_arg) (ns ns' : Namespace float) :
  (forall v, ~ In (opt_service v) argv) ->
  consume ns argv = inr ns' ->
  ns_service ns' = ns_service ns.
Proof.
  revert ns. induction argv as [| a rest IH]; intros ns Hno; cbn.
  - intros H. now inversion H.
  - destruct (take_action ns a) as [m | ns1] eqn:Ha; [discriminate |].
    intros Hc. rewrite (IH ns1); [| intros v Hin; apply (Hno v); now right | exact Hc].
    unfold_action. destruct a as [v | v | v | v | v | |]; cbn in Ha;
      repeat match type of Ha with
             | context [match ?x with _ => _ end] => destruct x
             end;
      inversion Ha; subst; try reflexivity.
    exfalso. apply (Hno v). now left.
Qed.

(** What an accepted command line says about the parse. *)
Lemma accepted_inv (argv : list cli_arg) (args : Namespace float)
    (target : string) :
  accepted argv args target ->
  consume defaults argv = inr args
  /\ (ns_target args <> None \/ ns_host args <> None)
  /\ build_target args = ret target.
Proof.
  intros [Hp Ht].
  assert (H : consume defaults argv = inr args
              /\ (ns_target args <> None \/ ns_host args <> None)).
  { clear Ht. unfold_parser.
    destruct (consume defaults argv) as [m | ns]; [discriminate |].
    destruct (ns_target ns) eqn:E1, (ns_host ns) eqn:E2; try discriminate;
      inversion Hp; subst; rewrite ?E1, ?E2;
      (split; [reflexivity |]);
      first [left; discriminate | right; discriminate]. }
  destruct H as [H1 H2]. auto.
Qed.

(** An option that leaves the address alone can be appended to an
    accepted command line. *)
Lemma accepted_app (argv : list cli_arg) (a : cli_arg)
    (args args' : Namespace float) (target : string) :
  accepted argv args target ->
  take_action args a = inr args' ->
  ns_target args' = ns_target args ->
  ns_host args' = ns_host args ->
  ns_port args' = ns_port args ->
  accepted (argv ++ [a]) args' target.
Proof.
  intros Hacc Ha E1 E2 E3.
  apply accepted_inv in Hacc. destruct Hacc as (Hc & Hg & Ht).
  split.
  - unfold_parser. rewrite consume_app, Hc, Ha, E1, E2.
    destruct (ns_target args), (ns_host args); try reflexivity.
    destruct Hg; contradiction.
  - unfold_parser. rewrite E1, E2, E3. exact Ht.
Qed.

(** The exit status for an answer with a named status, and the Check
    call that was made. *)
Lemma exit_status_of_answer (argv : list cli_arg) (args : Namespace float)
    (target : string) (status : Z) :
  accepted argv args target ->
  status = SERVING \/ status = NOT_SERVING \/ status = UNKNOWN
  \/ status = SERVICE_UNKNOWN ->
  Check_gives target (ns_service args) (ns_timeout args) (ns_tls args)
    (Return status) ->
  exits_with (main argv) (if status =? SERVING then 0 else 1)
  /\ In (CheckCalled (ns_service args) (ns_timeout args)) (events (main argv)).
Proof.
  intros Hacc Hst Hrun. rewrite (main_accepted _ _ _ Hacc).
  unfold_program.
  destruct Hst as [-> | [-> | [-> | ->]]];
    destruct (ns_verbose args), (truthy (ns_service args));
    use_runtime Hrun; cbn; split; auto 20.
Qed.

(** C8.  Without [--service] the request carries the empty service name.
    Against a server that answers SERVING for the empty name and
    NOT_SERVING for [X], the command line exits with status 0, and with
    [--service X] added it exits with status 1. *)
Theorem omitted_service_is_server_health (argv : list cli_arg)
    (args : Namespace float) (target X : string) :
  (forall v, ~ In (opt_service v) argv) ->
  accepted argv args target ->
  Check_gives target "" (ns_timeout args) (ns_tls args) (Return SERVING) ->
  Check_gives target X (ns_timeout args) (ns_tls args) (Return NOT_SERVING) ->
  ns_service args = ""
  /\ In (CheckCalled "" (ns_timeout args)) (events (main argv))
  /\ exits_with (main argv) 0
  /\ In (CheckCalled X (ns_timeout args))
       (events (main (argv ++ [opt_service X])))
  /\ exits_with (main (argv ++ [opt_service X])) 1.
Proof.
  intros Hno Hacc Hserving Hnot.
  assert (Hsvc : ns_service args = "").
  { destruct (accepted_inv _ _ _ Hacc) as (Hc & _ & _).
    now rewrite (consume_service _ _ _ Hno Hc). }
  split; [exact Hsvc |].
  rewrite <- Hsvc in Hserving.
  destruct (exit_status_of_answer argv args target SERVING Hacc) as [H0 Hcall];
    [now left | exact Hserving |].
  rewrite Hsvc in Hcall. split; [exact Hcall | split; [exact H0 |]].
  pose (args' := {| ns_target := ns_target args; ns_host := ns_host args;
                    ns_port := ns_port args; ns_service := X;
                    ns_timeout := ns_timeout args; ns_tls := ns_tls args;
                    ns_verbose := ns_verbose args |}).
  assert (Hacc' : accepted (argv ++ [opt_service X]) args' target).
  { apply (accepted_app argv (opt_service X) args args' target Hacc);
      reflexivity. }
  destruct (exit_status_of_answer _ args' target NOT_SERVING Hacc') as [H1 Hc1];
    [right; now left | exact Hnot |].
  split; [exact Hc1 | exact H1].
Qed.

(** *** The verbose flag *)

Lemma silent_app (t1 t2 : list (event float)) :
  silent (t1 ++ t2) = (silent t1 ++ silent t2)%list.
Proof.
  unfold silent. apply filter_app.
Qed.

(** [check_health] with and without [verbose]: same outcome, same trace
    up to printed lines. *)
Lemma check_health_verbose (target service : string) (timeout : float)
    (use_tls : bool) :
  result (check_health target service timeout use_tls true)
  = result (check_health target service timeout use_tls false)
  /\ silent (events (check_health target service timeout use_tls true))
     = silent (events (check_health target service timeout use_tls false)).
Proof.
  unfold_program. split_outcomes; cbn; split; reflexivity.
Qed.

(** The [try] statement of [main] for two namespaces that differ in
    [verbose] only. *)
Lemma main_try_verbose (args : Namespace float) (target : string) :
  let args' := {| ns_target := ns_target args; ns_host := ns_host args;
                  ns_port := ns_port args; ns_service := ns_service args;
                  ns_timeout := ns_timeout args; ns_tls := ns_tls args;
                  ns_verbose := true |} in
  let run a := try_except (main_try float str_float rt a target)
                 (main_except float a) in
  result (run args') = result (run args)
  /\ silent (events (run args')) = silent (events (run args)).
Proof.
  intros args' run. subst run. cbv beta.
  destruct (ns_verbose args) eqn:Hv.
  - replace args' with args; [now split |].
    subst args'. destruct args; cbn in *. now subst.
  - destruct (check_health_verbose target (ns_service args) (ns_timeout args)
                (ns_tls args)) as [Hr Hs].
    unfold_try. subst args'. cbn [ns_service ns_timeout ns_tls ns_verbose].
    rewrite Hv.
    destruct (check_health _ _ _ _ true) as [t1 r1].
    destruct (check_health _ _ _ _ false) as [t0 r0].
    cbn -[silent] in Hr, Hs. subst r1.
    destruct r0 as [[|] | e]; [| | destruct e];
      cbn -[silent]; rewrite ?silent_app, ?Hs; cbn; rewrite ?app_nil_r;
      split; reflexivity.
Qed.

(** C9.  With the other arguments and the runtime the same,
    [check_health] has the same outcome with and without [verbose], and so
    has [main] with [-v] added to the command line: the runs differ in
    printed lines only. *)
Theorem verbose_only_prints (target service : string) (timeout : float)
    (use_tls : bool) (argv : list cli_arg) :
  result (check_health target service timeout use_tls true)
  = result (check_health target service timeout use_tls false)
  /\ silent (events (check_health target service timeout use_tls true))
     = silent (events (check_health target service timeout use_tls false))
  /\ result (main (argv ++ [opt_verbose])) = result (main argv)
  /\ silent (events (main (argv ++ [opt_verbose])))
     = silent (events (main argv)).
Proof.
  destruct (check_health_verbose target service timeout use_tls) as [Hr Hs].
  split; [exact Hr | split; [exact Hs |]].
  unfold_main. unfold parse_args. rewrite consume_app.
  destruct (consume defaults argv) as [m | ns]; [now split |].
  cbn [take_action ns_target ns_host].
  destruct (ns_target ns) as [t |] eqn:Et, (ns_host ns) as [h |] eqn:Eh;
    [| | | now split];
    rewrite !bind_ret; unfold build_target;
    cbn [ns_target ns_host ns_port]; rewrite ?Et, ?Eh;
    try destruct (truthy t); try destruct (ns_port ns);
    try (now split); rewrite !bind_ret;
    exact (main_try_verbose ns _).
Qed.

(** ** Further properties of [check_health] and [main] *)

Local Abbreviation calls_succeed := (calls_succeed float rt).

(** X1.  [check_health] returns [True] only when every library call
    before the Check call returned and the Check call answered SERVING. *)
Theorem returns_true_only_if_serving (target service : string)
    (timeout : float) (use_tls verbose : bool) :
  result (check_health target service timeout use_tls verbose) = Return true ->
  Check_gives target service timeout use_tls (Return SERVING).
Proof.
  unfold_program. split_outcomes_eqn; cbn; intros H;
    try discriminate H; from_outcomes.
Qed.

Lemma stdout_lines_app (t1 t2 : list (event float)) :
  stdout_lines (t1 ++ t2) = (stdout_lines t1 ++ stdout_lines t2)%list.
Proof.
  unfold stdout_lines. apply flat_map_app.
Qed.

(** A [True] or a success line from [check_health] comes from a SERVING
    answer. *)
Lemma check_health_serving_inv (target service : string) (timeout : float)
    (use_tls verbose : bool) :
  result (check_health target service timeout use_tls verbose) = Return true
  \/ existsb success_indicator
       (stdout_lines (events (check_health target service timeout use_tls
                                verbose))) = true ->
  Check_gives target service timeout use_tls (Return SERVING).
Proof.
  unfold_program. split_outcomes_eqn; cbn; intros [H | H];
    try discriminate H; from_outcomes.
Qed.


(** X3.  Unless the probe itself raises [SystemExit], exit status 0 means
    that the command line was accepted and that the Check call was reached
    and answered SERVING. *)
Theorem exit_0_only_if_serving (argv : list cli_arg) :
  (forall args target code,
     accepted argv args target ->
     result (probe args target) <> Raise (SystemExit code)) ->
  exits_with (main argv) 0 ->
  exists args target,
    accepted argv args target
    /\ Check_gives target (ns_service args) (ns_timeout args) (ns_tls args)
         (Return SERVING).
Proof.
  intros Hno H. destruct (main_cases argv) as [(args & target & Hacc) | [m Hm]].
  - exists args, target. split; [exact Hacc |].
    specialize (Hno args target).
    rewrite (main_accepted _ _ _ Hacc) in H.
    pose proof (check_health_serving_inv target (ns_service args)
                  (ns_timeout args) (ns_tls args) (ns_verbose args)) as Hinv.
    unfold_try.
    destruct (check_health _ _ _ _ _) as [t [[|] | e]]; cbn in Hinv, Hno.
    + apply Hinv. now left.
    + destruct (ns_verbose args); discriminate H.
    + destruct e; cbn in H; try destruct (ns_verbose args);
        try discriminate H.
      all: now destruct (Hno code Hacc).
  - unfold exits_with in H. rewrite Hm in H. discriminate H.
Qed.

(** X4.  [check_health] makes the Check call exactly when every library
    call before it (channel, stub, request) returned. *)
Theorem check_made_iff_calls_succeed (target service : string)
    (timeout : float) (use_tls verbose : bool) :
  check_calls (events (check_health target service timeout use_tls verbose))
  = 1%nat
  <-> calls_succeed target service use_tls.
Proof.
  unfold_program.
  split.
  - split_outcomes_eqn; cbn; intros H; try discriminate H;
      repeat match goal with u : unit |- _ => destruct u end;
      unfold calls_succeed; repeat split; assumption.
  - unfold calls_succeed. destruct use_tls.
    + intros [[H1 H2] [H3 H4]]. rewrite H1, H2, H3, H4.
      split_outcomes; reflexivity.
    + intros [H1 [H3 H4]]. rewrite H1, H3, H4.
      split_outcomes; reflexivity.
Qed.

(** The channel protocol along a run of [check_health]. *)
Lemma check_health_protocol (target service : string) (timeout : float)
    (use_tls verbose : bool) :
  let t := events (check_health target service timeout use_tls verbose) in
  protocol t = Some NoChannel \/ protocol t = Some ChannelShut.
Proof.
  unfold_program. split_outcomes; cbn; auto.
Qed.

(** X5.  In every run of [main] the channel is used in order: it is
    created at most once, the Check call is made on the open channel, the
    channel is closed after it, and the run does not end with the channel
    open. *)
Theorem channel_used_in_order (argv : list cli_arg) :
  protocol (events (main argv)) = Some NoChannel
  \/ protocol (events (main argv)) = Some ChannelShut.
Proof.
  destruct (main_cases argv) as [(args & target & Hacc) | [m Hm]].
  - rewrite (main_accepted _ _ _ Hacc).
    pose proof (check_health_protocol target (ns_service args)
                  (ns_timeout args) (ns_tls args) (ns_verbose args)) as Hp.
    unfold_try. unfold protocol in *.
    destruct (check_health _ _ _ _ _) as [t [[|] | e]]; cbn [fst snd] in *;
      [| | destruct e]; try destruct (ns_verbose args); cbn -[fold_left];
      rewrite ?fold_left_app;
      destruct Hp as [-> | ->]; cbn; auto.
  - rewrite Hm. now left.
Qed.

(** [Name] on a number outside the enum. *)
Lemma ServingStatus_Name_unnamed (status : Z) :
  status < 0 \/ 3 < status ->
  ServingStatus_Name status
  = Raise (ValueError ("Enum ServingStatus has no name defined for value "
                         ++ str_int status)).
Proof.
  intros H. destruct status as [| p | p]; [lia | | reflexivity].
  destruct p as [[p | p |] | [p | p |] |]; try reflexivity; lia.
Qed.


(** X7.  Only [grpc.RpcError] is translated: any other exception that the
    Check call raises leaves [check_health] unchanged, after the channel
    was closed and without a second call. *)
Theorem other_exception_propagates (args : Namespace float)
    (target : string) (e : exn) :
  (forall code details text, e <> RpcError code details text) ->
  Check_gives target (ns_service args) (ns_timeout args) (ns_tls args)
    (Raise e) ->
  result (probe args target) = Raise e
  /\ silent (events (probe args target))
     = [ChannelOpened target (ns_tls args);
        CheckCalled (ns_service args) (ns_timeout args);
        ChannelClosed].
Proof.
  intros Hne Hrun. unfold_program.
  destruct (ns_verbose args), (truthy (ns_service args));
    use_runtime Hrun; destruct e; cbn;
    try (now split);
    now destruct (Hne code details text).
Qed.

Lemma printed_app (t1 t2 : list (event float)) :
  printed (t1 ++ t2) = (printed t1 ++ printed t2)%list.
Proof.
  unfold printed. apply filter_app.
Qed.

(** Without [verbose], [check_health] prints nothing. *)
Lemma check_health_quiet (target service : string) (timeout : float)
    (use_tls : bool) :
  printed (events (check_health target service timeout use_tls false)) = [].
Proof.
  unfold_program. split_outcomes; reflexivity.
Qed.


(** *** Where the fields of the namespace come from *)

(** After one occurrence every field has its old value or the value that
    the occurrence gave it. *)
Lemma take_action_origin (ns ns' : Namespace float) (a : cli_arg) :
  take_action ns a = inr ns' ->
  (ns_target ns' = ns_target ns
   \/ exists v, a = opt_target v /\ ns_target ns' = Some v)
  /\ (ns_host ns' = ns_host ns
      \/ exists v, a = opt_host v /\ ns_host ns' = Some v)
  /\ (ns_port ns' = ns_port ns
      \/ exists v n, a = opt_port v /\ int_of_str v = Some n
                     /\ ns_port ns' = Some n)
  /\ (ns_timeout ns' = ns_timeout ns
      \/ exists v, a = opt_timeout v
                   /\ float_of_str v = Some (ns_timeout ns'))
  /\ (ns_tls ns' = ns_tls ns \/ a = opt_tls /\ ns_tls ns' = true)
  /\ (ns_verbose ns' = ns_verbose ns
      \/ a = opt_verbose /\ ns_verbose ns' = true).
Proof.
  unfold_action. destruct a as [v | v | v | v | v | |]; cbn;
    repeat match goal with
           | |- context [match ?x with _ => _ end] => destruct x eqn:?
           end;
    intros H; inversion H; subst; cbn;
    repeat split; try (left; reflexivity); right; eauto.
Qed.

Lemma consume_origin (argv : list cli_arg) (ns ns' : Namespace float) :
  consume ns argv = inr ns' ->
  (ns_target ns' = ns_target ns
   \/ exists v, In (opt_target v) argv /\ ns_target ns' = Some v)
  /\ (ns_host ns' = ns_host ns
      \/ exists v, In (opt_host v) argv /\ ns_host ns' = Some v)
  /\ (ns_port ns' = ns_port ns
      \/ exists v n, In (opt_port v) argv /\ int_of_str v = Some n
                     /\ ns_port ns' = Some n)
  /\ (ns_timeout ns' = ns_timeout ns
      \/ exists v, In (opt_timeout v) argv
                   /\ float_of_str v = Some (ns_timeout ns'))
  /\ (ns_tls ns' = ns_tls ns \/ In opt_tls argv /\ ns_tls ns' = true)
  /\ (ns_verbose ns' = ns_verbose ns
      \/ In opt_verbose argv /\ ns_verbose ns' = true).
Proof.
  revert ns. induction argv as [| a rest IH]; intros ns; cbn.
  - intros H. inversion H; subst. repeat split; now left.
  - destruct (take_action ns a) as [m | ns1] eqn:Ha; [discriminate |].
    intros Hc. apply IH in Hc. apply take_action_origin in Ha.
    destruct Ha as (A1 & A2 & A3 & A4 & A5 & A6).
    destruct Hc as (B1 & B2 & B3 & B4 & B5 & B6).
    repeat split.
    + destruct B1 as [-> | (v & Hin & ->)]; [| right; eauto].
      destruct A1 as [-> | (v & -> & ->)]; [now left | right; eauto].
    + destruct B2 as [-> | (v & Hin & ->)]; [| right; eauto].
      destruct A2 as [-> | (v & -> & ->)]; [now left | right; eauto].
    + destruct B3 as [-> | (v & n & Hin & Hn & ->)]; [| right; eauto 6].
      destruct A3 as [-> | (v & n & -> & Hn & ->)];
        [now left | right; eauto 6].
    + destruct B4 as [-> | (v & Hin & Hv)]; [| right; eauto].
      destruct A4 as [-> | (v & -> & Hv)]; [now left | right; eauto].
    + destruct B5 as [-> | [Hin ->]]; [| right; auto].
      destruct A5 as [-> | [-> ->]]; [now left | right; auto].
    + destruct B6 as [-> | [Hin ->]]; [| right; auto].
      destruct A6 as [-> | [-> ->]]; [now left | right; auto].
Qed.

(** *** Command lines that are refused, and the address that is built *)

(** X9.  Without [--port], a command line on which no [--target] has a
    non-empty value (in particular one that only gives [--host]) is
    refused with a parser error and exit status 2: nothing is probed. *)
Theorem address_without_port_rejected (argv : list cli_arg) :
  (forall v, In (opt_target v) argv -> v = "") ->
  (forall v, ~ In (opt_port v) argv) ->
  exists message, main argv = ([ParserError message], Raise (SystemExit 2)).
Proof.
  intros Ht Hp. unfold_main. unfold parse_args.
  destruct (consume defaults argv) as [m | ns] eqn:Hc; [now exists m |].
  destruct (consume_origin _ _ _ Hc) as (B1 & _ & B3 & _).
  assert (Hport : ns_port ns = None).
  { destruct B3 as [E | (v & n & Hin & _)]; [exact E | now destruct (Hp v)]. }
  assert (Htarget : ns_target ns = None \/ ns_target ns = Some "").
  { destruct B1 as [E | (v & Hin & E)]; [now left |].
    right. now rewrite E, (Ht v Hin). }
  destruct Htarget as [E | E]; rewrite E; destruct (ns_host ns);
    rewrite ?bind_ret; unfold build_target; rewrite ?E, ?Hport;
    eexists; reflexivity.
Qed.

(** X10.  A command line with neither [--target] nor [--host] is refused
    with a parser error and exit status 2, whatever else it gives. *)
Theorem missing_address_rejected (argv : list cli_arg) :
  (forall v, ~ In (opt_target v) argv) ->
  (forall v, ~ In (opt_host v) argv) ->
  exists message, main argv = ([ParserError message], Raise (SystemExit 2)).
Proof.
  intros Ht Hh. unfold_main. unfold_parser.
  destruct (consume defaults argv) as [m | ns] eqn:Hc; [now exists m |].
  destruct (consume_origin _ _ _ Hc) as (B1 & B2 & _).
  destruct B1 as [E1 | (v & Hin & _)]; [| now destruct (Ht v)].
  destruct B2 as [E2 | (v & Hin & _)]; [| now destruct (Hh v)].
  rewrite E1, E2. cbn. eexists. reflexivity.
Qed.

(** A parse that succeeds converted every [--port] and [--timeout]
    value. *)
Lemma consume_converts (argv : list cli_arg) (ns ns' : Namespace float) :
  consume ns argv = inr ns' ->
  (forall v, In (opt_port v) argv -> int_of_str v <> None)
  /\ (forall v, In (opt_timeout v) argv -> float_of_str v <> None).
Proof.
  revert ns. induction argv as [| a rest IH]; intros ns; cbn.
  - intros _. split; intros v [].
  - destruct (take_action ns a) as [m | ns1] eqn:Ha; [discriminate |].
    intros Hc. destruct (IH _ Hc) as [I1 I2].
    split; intros v [-> | Hin]; auto;
      unfold_action; cbn in Ha; intros E; rewrite E in Ha; discriminate Ha.
Qed.

(** X11.  A [--port] value that [int] refuses, or a [--timeout] value that
    [float] refuses, anywhere on the command line, ends the run with a
    parser error and exit status 2 before anything is probed. *)
Theorem bad_value_rejected (argv : list cli_arg) :
  (exists v, In (opt_port v) argv /\ int_of_str v = None)
  \/ (exists v, In (opt_timeout v) argv /\ float_of_str v = None) ->
  exists message, main argv = ([ParserError message], Raise (SystemExit 2)).
Proof.
  intros Hbad. unfold_main. unfold_parser.
  destruct (consume defaults argv) as [m | ns] eqn:Hc; [now exists m |].
  destruct (consume_converts _ _ _ Hc) as [H1 H2].
  destruct Hbad as [(v & Hin & E) | (v & Hin & E)].
  - now destruct (H1 v Hin).
  - now destruct (H2 v Hin).
Qed.

(** X12.  A command line on which [--target] is given, and only with the
    empty string, is not refused when it has a [--port]: the address
    probed is ["None:<port>"]. *)
Theorem empty_target_probes_None (argv : list cli_arg)
    (args : Namespace float) (target : string) :
  In (opt_target "") argv ->
  (forall v, In (opt_target v) argv -> v = "") ->
  accepted argv args target ->
  exists n, ns_port args = Some n /\ target = "None:" ++ str_int n.
Proof.
  intros Hin Hall Hacc.
  destruct (accepted_inv _ _ _ Hacc) as (Hc & _ & Hb).
  destruct (consume_group _ _ _ Hc) as (_ & _ & G3 & _ & G5).
  destruct (consume_origin _ _ _ Hc) as (B1 & _).
  assert (Ht : ns_target args = Some "").
  { destruct B1 as [E | (v & Hv & E)].
    - now destruct (G3 _ Hin).
    - now rewrite E, (Hall v Hv). }
  assert (Hh : ns_host args = None).
  { destruct G5 as [E | E]; [now left | | exact E].
    rewrite Ht in E. discriminate E. }
  unfold_parser. rewrite Ht, Hh in Hb. cbn in Hb.
  destruct (ns_port args) as [n |]; [| discriminate Hb].
  exists n. split; [reflexivity |]. now inversion Hb.
Qed.

(** What [check_health] does with the channel when the calls before the
    Check call return. *)
Lemma check_health_events (target service : string) (timeout : float)
    (use_tls verbose : bool) :
  calls_succeed target service use_tls ->
  let t := events (check_health target service timeout use_tls verbose) in
  In (ChannelOpened target use_tls) t /\ In (CheckCalled service timeout) t.
Proof.
  unfold calls_succeed. unfold_program. destruct use_tls.
  - intros [[H1 H2] [H3 H4]]. rewrite H1, H2, H3, H4.
    split_outcomes; cbn; split; auto 20.
  - intros [H1 [H3 H4]]. rewrite H1, H3, H4.
    split_outcomes; cbn; split; auto 20.
Qed.

(** The events of the probe are events of the run of [main]. *)
Lemma main_events_incl (argv : list cli_arg) (args : Namespace float)
    (target : string) (ev : event float) :
  accepted argv args target ->
  In ev (events (probe args target)) -> In ev (events (main argv)).
Proof.
  intros Hacc. rewrite (main_accepted _ _ _ Hacc). unfold_try.
  destruct (check_health _ _ _ _ _) as [t [[|] | e]]; cbn [fst]; intros Hin.
  - destruct (ns_verbose args); cbn; apply in_or_app; now left.
  - destruct (ns_verbose args); cbn; apply in_or_app; now left.
  - destruct e; cbn; try destruct (ns_verbose args); cbn;
      try (apply in_or_app; now left); exact Hin.
Qed.

(** X13.  Without [--timeout] the Check call is made with the timeout
    5.0, and without [--tls] on a plaintext channel. *)
Theorem omitted_options_take_defaults (argv : list cli_arg)
    (args : Namespace float) (target : string) :
  accepted argv args target ->
  (forall v, ~ In (opt_timeout v) argv) ->
  ~ In opt_tls argv ->
  calls_succeed target (ns_service args) false ->
  ns_timeout args = float_5_0
  /\ ns_tls args = false
  /\ In (ChannelOpened target false) (events (main argv))
  /\ In (CheckCalled (ns_service args) float_5_0) (events (main argv)).
Proof.
  intros Hacc Hto Htls Hcalls.
  destruct (accepted_inv _ _ _ Hacc) as (Hc & _ & _).
  destruct (consume_origin _ _ _ Hc) as (_ & _ & _ & B4 & B5 & _).
  assert (E4 : ns_timeout args = float_5_0).
  { destruct B4 as [E | (v & Hin & _)]; [exact E | now destruct (Hto v)]. }
  assert (E5 : ns_tls args = false).
  { destruct B5 as [E | [Hin _]]; [exact E | now destruct Htls]. }
  split; [exact E4 | split; [exact E5 |]].
  destruct (check_health_events target (ns_service args) (ns_timeout args)
              false (ns_verbose args) Hcalls) as [H1 H2].
  rewrite E4 in H1, H2.
  split; apply (main_events_incl argv args target _ Hacc);
    unfold_try; rewrite E4, E5; assumption.
Qed.

(** *** [--host] with [--port] and [--target] *)

Local Abbreviation same_request := (same_request float).
Local Abbreviation same_address := (same_address float).

(** Options that are not address options act alike on two namespaces
    that ask for the same Check call, and leave the addresses alone. *)
Lemma consume_parallel (rest : list cli_arg) (ns1 ns2 : Namespace float) :
  forallb (fun a => negb (is_address_option a)) rest = true ->
  same_request ns1 ns2 ->
  match consume ns1 rest, consume ns2 rest with
  | inl m1, inl m2 => m1 = m2
  | inr n1, inr n2 =>
      same_request n1 n2 /\ same_address n1 ns1 /\ same_address n2 ns2
  | _, _ => False
  end.
Proof.
  revert ns1 ns2. induction rest as [| a rest IH]; intros ns1 ns2 Hfree Hreq.
  - cbn. split; [assumption | split; repeat split].
  - cbn in Hfree. apply andb_prop in Hfree. destruct Hfree as [Ha Hrest].
    destruct Hreq as (E1 & E2 & E3 & E4).
    cbn [consume]. unfold_action.
    destruct a as [v | v | v | v | v | |]; try discriminate Ha; cbn;
      try destruct (float_of_str v); try reflexivity;
      match goal with
      | |- context [consume ?a1 rest] =>
          match a1 with context [ns1] => idtac end;
          match goal with
          | |- context [consume ?a2 rest] =>
              match a2 with context [ns2] => idtac end;
              assert (Hreq : same_request a1 a2)
                by (unfold same_request; cbn; repeat split;
                    first [assumption | reflexivity]);
              specialize (IH a1 a2 Hrest Hreq);
              destruct (consume a1 rest) as [m1 | n1],
                       (consume a2 rest) as [m2 | n2];
              unfold same_address in *; cbn in IH; exact IH
          end
      end.
Qed.

Lemma truthy_address (h x : string) : truthy (h ++ ":" ++ x) = true.
Proof.
  now destruct h.
Qed.

(** X14.  [--host H --port P] stands for [--target H:P]: followed by the
    same other options, the two command lines give the same run. *)
Theorem host_port_equals_target (h p : string) (n : Z)
    (rest : list cli_arg) :
  int_of_str p = Some n ->
  forallb (fun a => negb (is_address_option a)) rest = true ->
  main (opt_host h :: opt_port p :: rest)
  = main (opt_target (h ++ ":" ++ str_int n) :: rest).
Proof.
  intros Hn Hfree. unfold_main. unfold parse_args.
  cbn [consume]. unfold_action. cbn. rewrite Hn. cbn.
  match goal with
  | |- context [consume ?a1 rest] =>
      match goal with
      | |- _ = ?rhs =>
          match rhs with
          | context [consume ?a2 rest] =>
              pose proof (consume_parallel rest a1 a2 Hfree) as Hpar;
              destruct (consume a1 rest) as [m1 | n1],
                       (consume a2 rest) as [m2 | n2]
          end
      end
  end; cbn in Hpar.
  - rewrite Hpar; [reflexivity | repeat split].
  - destruct Hpar. repeat split.
  - destruct Hpar. repeat split.
  - destruct Hpar as ((E1 & E2 & E3 & E4) & (A1 & A2 & A3) & (B1 & B2 & B3));
      [repeat split |].
    cbn in A1, A2, A3, B1, B2, B3.
    rewrite A1, ?A2, B1, ?B2. cbv iota. rewrite !bind_ret.
    unfold build_target. rewrite A1, A2, A3, B1.
    match goal with
    | |- context [truthy ?t] =>
        replace (truthy t) with true
          by (symmetry; apply (truthy_address h (str_int n)))
    end.
    cbn [str_optional].
    rewrite !bind_ret. unfold main_try, main_except.
    rewrite E1, E2, E3, E4. reflexivity.
Qed.

End Properties.

(** ** The properties on the example server *)

(** C1, on [--target localhost:50051]. *)
Lemma serving_exits_0_witness :
  let argv := [opt_target "localhost:50051"] in
  let run := Example.main Example.server argv in
  result (Example.probe Example.server (Example.local "") "localhost:50051")
  = Return true
  /\ existsb success_indicator (stdout_lines (events run)) = true
  /\ existsb failure_indicator (stdout_lines (events run)) = false
  /\ exits_with run 0.
Proof.
  apply (serving_exits_0 Z Example.float_of_str Example.str_float 5
           Example.int_of_str Example.server
           [opt_target "localhost:50051"] (Example.local "")
           "localhost:50051").
  - split; reflexivity.
  - repeat split.
Defined.

(** C2, on [--target localhost:50051 --service example.AnotherService]. *)
Lemma not_serving_exits_1_witness :
  let argv := [opt_target "localhost:50051";
               opt_service "example.AnotherService"] in
  let run := Example.main Example.server argv in
  result (Example.probe Example.server
            (Example.local "example.AnotherService") "localhost:50051")
  = Return false
  /\ existsb failure_indicator (stdout_lines (events run)) = true
  /\ existsb success_indicator (stdout_lines (events run)) = false
  /\ exits_with run 1.
Proof.
  apply (not_serving_exits_1 Z Example.float_of_str Example.str_float 5
           Example.int_of_str Example.server
           [opt_target "localhost:50051";
            opt_service "example.AnotherService"]
           (Example.local "example.AnotherService") "localhost:50051"
           NOT_SERVING).
  - split; reflexivity.
  - now left.
  - repeat split.
Defined.

(** C3, on [--target localhost:50051 --service billing], a service the
    example server was not told about. *)
Lemma rpc_error_classified_witness :
  let argv := [opt_target "localhost:50051"; opt_service "billing"] in
  result (Example.probe Example.server (Example.local "billing")
            "localhost:50051")
  = Raise (HealthCheckError "Service 'billing' not found")
  /\ In (Stderr "❌ Health check failed: Service 'billing' not found")
       (events (Example.main Example.server argv))
  /\ check_calls (events (Example.main Example.server argv)) = 1%nat
  /\ exits_with (Example.main Example.server argv) 1.
Proof.
  apply (rpc_error_classified Z Example.float_of_str Example.str_float 5
           Example.int_of_str Example.server
           [opt_target "localhost:50051"; opt_service "billing"]
           (Example.local "billing") "localhost:50051"
           NOT_FOUND "" "<_InactiveRpcError>").
  - split; reflexivity.
  - repeat split.
Defined.

(** C4, as stated, fails: giving [--target] and [--host] together is an
    argument error, and the process exits with status 2, not 1. *)
Lemma argument_error_exits_2 :
  let run := Example.main Example.server
               [opt_target "localhost:50051"; opt_host "localhost";
                opt_port "50051"] in
  run = ([ParserError "argument --host: not allowed with argument --target"],
         Raise (SystemExit 2))
  /\ ~ exits_with run 1.
Proof.
  split; [reflexivity | discriminate].
Defined.

(** C4 (amended), on [--host localhost] (no port: an argument error) and
    on [--target localhost:50052] (nothing listens there). *)
Lemma errors_are_terminal_witness :
  (exists message,
     Example.main Example.server [opt_host "localhost"]
     = ([ParserError message], Raise (SystemExit 2)))
  /\ (In (Stderr "❌ Health check failed: Cannot connect to localhost:50052")
         (events (Example.main Example.server [opt_target "localhost:50052"]))
      /\ exits_with
           (Example.main Example.server [opt_target "localhost:50052"]) 1).
Proof.
  split.
  - apply (errors_are_terminal Z Example.float_of_str Example.str_float 5
             Example.int_of_str Example.server [opt_host "localhost"]).
    intros args target [Hp Ht]. vm_compute in Hp. inversion Hp; subst.
    vm_compute in Ht. discriminate Ht.
  - apply (proj2 (proj2 (errors_are_terminal Z Example.float_of_str
                           Example.str_float 5 Example.int_of_str
                           Example.server [opt_target "localhost:50052"]))
             {| ns_target := Some "localhost:50052"; ns_host := None;
                ns_port := None; ns_service := ""; ns_timeout := 5;
                ns_tls := false; ns_verbose := false |}
             "localhost:50052" "Cannot connect to localhost:50052").
    + split; reflexivity.
    + reflexivity.
Defined.

(** C5, on [--target localhost:50051 --host localhost --port 50051]. *)
Lemma target_and_host_rejected_witness :
  let argv := [opt_target "localhost:50051"; opt_host "localhost";
               opt_port "50051"] in
  exists message,
    Example.main Example.server argv
    = ([ParserError message], Raise (SystemExit 2))
    /\ check_calls (events (Example.main Example.server argv)) = 0%nat
    /\ channel_after (events (Example.main Example.server argv)) = NoChannel.
Proof.
  apply (target_and_host_rejected Z Example.float_of_str Example.str_float 5
           Example.int_of_str Example.server _ "localhost:50051" "localhost").
  - simpl. auto.
  - simpl. auto.
Defined.

(** [--port] is not a member of the exclusive group: next to [--target]
    it is accepted and not used. *)
Remark port_next_to_target_is_unused :
  Example.main Example.server [opt_target "localhost:50051"; opt_port "1"]
  = Example.main Example.server [opt_target "localhost:50051"].
Proof.
  reflexivity.
Qed.

(** C6, on a probe of the example server. *)
Lemma check_health_closes_channel_witness :
  let run := check_health Z Example.str_float Example.server
               "localhost:50051" "" 5 false false in
  hd_error (rev (events run)) = Some ChannelClosed
  /\ channel_after (events run) = ChannelShut.
Proof.
  apply (proj2 (check_health_closes_channel Z Example.str_float
                  Example.server "localhost:50051" "" 5 false false)).
  simpl. auto.
Defined.

(** C7, as stated, fails: for the answer NOT_SERVING (2) the caller gets
    [False], which is not that status; as a Python number [False] is 0,
    the value of UNKNOWN. *)
Lemma check_health_returns_no_status :
  stub_Check Example.server "localhost:50051" false "example.AnotherService" 5
  = Return NOT_SERVING
  /\ result (Example.probe Example.server
               (Example.local "example.AnotherService") "localhost:50051")
     = Return false
  /\ Z.b2z false <> NOT_SERVING.
Proof.
  repeat split. discriminate.
Defined.

(** C7 (amended), on the same probe. *)
Lemma check_health_returns_is_serving_witness :
  result (Example.probe Example.server
            (Example.local "example.AnotherService") "localhost:50051")
  = Return (NOT_SERVING =? SERVING).
Proof.
  apply (check_health_returns_is_serving Z Example.str_float Example.server
           (Example.local "example.AnotherService") "localhost:50051"
           NOT_SERVING).
  - right. now left.
  - repeat split.
Defined.

(** C8, on the example server, with [example.AnotherService] for [X]. *)
Lemma omitted_service_is_server_health_witness :
  let argv := [opt_target "localhost:50051"] in
  let X := "example.AnotherService" in
  ns_service (Example.local "") = ""
  /\ In (CheckCalled "" 5) (events (Example.main Example.server argv))
  /\ exits_with (Example.main Example.server argv) 0
  /\ In (CheckCalled X 5)
       (events (Example.main Example.server (argv ++ [opt_service X])))
  /\ exits_with (Example.main Example.server (argv ++ [opt_service X])) 1.
Proof.
  apply (omitted_service_is_server_health Z Example.float_of_str
           Example.str_float 5 Example.int_of_str Example.server
           [opt_target "localhost:50051"] (Example.local "")
           "localhost:50051" "example.AnotherService").
  - intros v [H | []]. discriminate H.
  - split; reflexivity.
  - repeat split.
  - repeat split.
Defined.

(** C10, as stated, fails: a [KeyboardInterrupt] raised while the Check
    call blocks is not of class [Exception]; it leaves [main], which
    prints nothing on stderr and does not exit with status 1. *)
Lemma keyboard_interrupt_leaves_main :
  let argv := [opt_target "localhost:50051"] in
  let run := Example.main Example.interrupted argv in
  Example.accepted argv (Example.local "") "localhost:50051"
  /\ result (Example.probe Example.interrupted (Example.local "")
               "localhost:50051") = Raise KeyboardInterrupt
  /\ run = ([ChannelOpened "localhost:50051" false; CheckCalled "" 5;
             ChannelClosed], Raise KeyboardInterrupt)
  /\ ~ exits_with run 1.
Proof.
  repeat split. discriminate.
Defined.

(** C10 (amended), on a server that answers status 7: [Name] raises
    [ValueError], which [main] reports before it exits with status 1. *)
Lemma exceptions_are_caught_witness :
  let argv := [opt_target "localhost:50051"] in
  In (Stderr
        "❌ Unexpected error: Enum ServingStatus has no name defined for value 7")
     (events (Example.main Example.unnamed_status argv))
  /\ exits_with (Example.main Example.unnamed_status argv) 1.
Proof.
  apply (exceptions_are_caught Z Example.float_of_str Example.str_float 5
           Example.int_of_str Example.unnamed_status
           [opt_target "localhost:50051"] (Example.local "")
           "localhost:50051"
           (ValueError "Enum ServingStatus has no name defined for value 7")).
  - split; reflexivity.
  - reflexivity.
  - reflexivity.
Defined.

(** ** The further properties on the example server *)

(** X1, on a probe of the overall health of the example server. *)
Lemma returns_true_only_if_serving_witness :
  Check_gives Z Example.server "localhost:50051" "" 5 false (Return SERVING).
Proof.
  apply (returns_true_only_if_serving Z Example.str_float Example.server
           "localhost:50051" "" 5 false false).
  reflexivity.
Defined.


(** X3, on [--target localhost:50051]. *)
Lemma exit_0_only_if_serving_witness :
  exists args target,
    Example.accepted [opt_target "localhost:50051"] args target
    /\ Check_gives Z Example.server target (ns_service args)
         (ns_timeout args) (ns_tls args) (Return SERVING).
Proof.
  apply (exit_0_only_if_serving Z Example.float_of_str Example.str_float 5
           Example.int_of_str Example.server [opt_target "localhost:50051"]).
  - intros args target code [Hp Ht]. vm_compute in Hp. inversion Hp; subst.
    vm_compute in Ht. inversion Ht; subst. discriminate.
  - reflexivity.
Defined.


(** X7, on the interrupted Check call. *)
Lemma other_exception_propagates_witness :
  result (Example.probe Example.interrupted (Example.local "")
            "localhost:50051") = Raise KeyboardInterrupt
  /\ silent (events (Example.probe Example.interrupted (Example.local "")
                       "localhost:50051"))
     = [ChannelOpened "localhost:50051" false; CheckCalled "" 5;
        ChannelClosed].
Proof.
  apply (other_exception_propagates Z Example.str_float Example.interrupted
           (Example.local "") "localhost:50051" KeyboardInterrupt).
  - intros code details text. discriminate.
  - repeat split.
Defined.


(** X9, on [--host localhost]. *)
Lemma address_without_port_rejected_witness :
  exists message,
    Example.main Example.server [opt_host "localhost"]
    = ([ParserError message], Raise (SystemExit 2)).
Proof.
  apply (address_without_port_rejected Z Example.float_of_str
           Example.str_float 5 Example.int_of_str Example.server
           [opt_host "localhost"]).
  - intros v [H | []]. discriminate H.
  - intros v [H | []]. discriminate H.
Defined.

(** X10, on [--port 50051 --service example.Service]. *)
Lemma missing_address_rejected_witness :
  exists message,
    Example.main Example.server
      [opt_port "50051"; opt_service "example.Service"]
    = ([ParserError message], Raise (SystemExit 2)).
Proof.
  apply (missing_address_rejected Z Example.float_of_str
           Example.str_float 5 Example.int_of_str Example.server
           [opt_port "50051"; opt_service "example.Service"]).
  - intros v [H | [H | []]]; discriminate H.
  - intros v [H | [H | []]]; discriminate H.
Defined.

(** X11, on [--target localhost:50051 --port http]. *)
Lemma bad_value_rejected_witness :
  exists message,
    Example.main Example.server
      [opt_target "localhost:50051"; opt_port "http"]
    = ([ParserError message], Raise (SystemExit 2)).
Proof.
  apply (bad_value_rejected Z Example.float_of_str Example.str_float 5
           Example.int_of_str Example.server
           [opt_target "localhost:50051"; opt_port "http"]).
  left. exists "http". split; [right; now left | reflexivity].
Defined.

(** X12, on [--target "" --port 50051]. *)
Lemma empty_target_probes_None_witness :
  exists n, Some 50051 = Some n /\ "None:50051" = "None:" ++ str_int n.
Proof.
  apply (empty_target_probes_None Z Example.float_of_str 5
           Example.int_of_str [opt_target ""; opt_port "50051"]
           {| ns_target := Some ""; ns_host := None; ns_port := Some 50051;
              ns_service := ""; ns_timeout := 5; ns_tls := false;
              ns_verbose := false |}
           "None:50051").
  - now left.
  - intros v [H | [H | []]]; [now inversion H | discriminate H].
  - split; reflexivity.
Defined.

(** X13, on [--target localhost:50051]. *)
Lemma omitted_options_take_defaults_witness :
  let argv := [opt_target "localhost:50051"] in
  ns_timeout (Example.local "") = 5
  /\ ns_tls (Example.local "") = false
  /\ In (ChannelOpened "localhost:50051" false)
       (events (Example.main Example.server argv))
  /\ In (CheckCalled "" 5) (events (Example.main Example.server argv)).
Proof.
  apply (omitted_options_take_defaults Z Example.float_of_str
           Example.str_float 5 Example.int_of_str Example.server
           [opt_target "localhost:50051"] (Example.local "")
           "localhost:50051").
  - split; reflexivity.
  - intros v [H | []]. discriminate H.
  - intros [H | []]. discriminate H.
  - repeat split.
Defined.

(** X14, on [--host localhost --port 50051 --service example.Service -v]. *)
Lemma host_port_equals_target_witness :
  Example.main Example.server
    [opt_host "localhost"; opt_port "50051";
     opt_service "example.Service"; opt_verbose]
  = Example.main Example.server
      [opt_target "localhost:50051";
       opt_service "example.Service"; opt_verbose].
Proof.
  apply (host_port_equals_target Z Example.float_of_str Example.str_float 5
           Example.int_of_str Example.server "localhost" "50051" 50051
           [opt_service "example.Service"; opt_verbose]).
  - reflexivity.
  - reflexivity.
Defined.
